(** * Supplier Quotation list-view settings

    Shallow embedding of [supplier_quotation_list.js]:

<<
frappe.listview_settings['Supplier Quotation'] = {
	add_fields: ["supplier", "base_grand_total", "status", "company", "currency"],
	get_indicator: function(doc) {
		if(doc.status==="Ordered") {
			return [__("Ordered"), "purple", "status,=,Ordered"];
		} else if(doc.status==="Rejected") {
			return [__("Lost"), "darkgrey", "status,=,Lost"];
		}
	}
};
>>

    JavaScript values are modelled with objects living in a heap, so that
    reads of [doc.status] and the absence of writes are explicit.  The
    computation runs in a small state-and-exception monad. *)

From stdpp Require Import base gmap strings.
From Stdlib Require Import ZArith.

(** ** JavaScript values and the heap *)

Definition loc := positive.

Inductive jsval :=
  | JUndefined
  | JNull
  | JBool (b : bool)
  | JNum (n : Z)            (** only its being a non-string matters here *)
  | JStr (s : string)
  | JObj (l : loc).

(** An object: its own properties.  [Object.prototype] and
    [String.prototype] have no [status] property, so own properties
    are all a read of [status] can see. *)
Abbreviation object := (gmap string jsval).
Abbreviation heap := (gmap loc object).

Inductive js_error :=
  | TypeError (msg : string).

(** ** A state-and-exception monad *)

Definition M (A : Type) : Type := heap -> (js_error + A) * heap.

Definition ret {A} (a : A) : M A := fun h => (inr a, h).
Definition bind {A B} (m : M A) (f : A -> M B) : M B :=
  fun h => match m h with
           | (inl e, h') => (inl e, h')
           | (inr a, h') => f a h'
           end.
Definition throw {A} (e : js_error) : M A := fun h => (inl e, h).

Notation "x <- m1 ;; m2" := (bind m1 (fun x => m2))
  (at level 100, m1 at next level, right associativity).

(** Property read [v.p] (ECMAScript GetValue on a property reference):
    a TypeError on [undefined] and [null]; [undefined] for a missing
    property; primitives have no [status] property. *)
Definition get_prop (v : jsval) (p : string) : M jsval :=
  fun h =>
    match v with
    | JUndefined | JNull => (inl (TypeError "Cannot read properties"), h)
    | JObj l =>
        match h !! l with
        | Some o => (inr (default JUndefined (o !! p)), h)
        | None => (inr JUndefined, h)
        end
    | _ => (inr JUndefined, h)
    end.

(** Strict equality [v === "lit"] against a string literal. *)
Definition strict_eq_str (v : jsval) (lit : string) : bool :=
  match v with
  | JStr s => String.eqb s lit
  | _ => false
  end.

(** ** The list-view settings *)

(** An indicator: [label, color, filter]. *)
Record indicator := mk_indicator {
  label : string;
  color : string;
  filter : string
}.

Section ListView.

(** [__]: the host's translation lookup, an injected collaborator. *)
Variable tr : string -> string.

(** [get_indicator]; a function that falls off its end returns
    [undefined], modelled as [None]. *)
Definition get_indicator (doc : jsval) : M (option indicator) :=
  s1 <- get_prop doc "status" ;;
  if strict_eq_str s1 "Ordered" then
    ret (Some (mk_indicator (tr "Ordered") "purple" "status,=,Ordered"))
  else
    s2 <- get_prop doc "status" ;;
    if strict_eq_str s2 "Rejected" then
      ret (Some (mk_indicator (tr "Lost") "darkgrey" "status,=,Lost"))
    else ret None.

End ListView.

Definition add_fields : list string :=
  ["supplier"; "base_grand_total"; "status"; "company"; "currency"].

Record listview_settings := mk_settings {
  ls_add_fields : list string;
  ls_get_indicator : (string -> string) -> jsval -> M (option indicator)
}.

Definition supplier_quotation_settings : listview_settings :=
  mk_settings add_fields get_indicator.

(** [frappe.listview_settings['Supplier Quotation'] = {...}]. *)
Definition register (reg : gmap string listview_settings)
  : gmap string listview_settings :=
  <["Supplier Quotation" := supplier_quotation_settings]> reg.

(** ** Evaluation lemmas *)

(** The value [doc.status] reads, for a document object [o]. *)
Definition status_of (o : object) : jsval := default JUndefined (o !! "status").

(** What [get_indicator] yields once [doc.status] has been read (both
    reads see the same value, as nothing is written in between). *)
Definition branch (tr : string -> string) (s : jsval) : option indicator :=
  if strict_eq_str s "Ordered" then
    Some (mk_indicator (tr "Ordered") "purple" "status,=,Ordered")
  else if strict_eq_str s "Rejected" then
    Some (mk_indicator (tr "Lost") "darkgrey" "status,=,Lost")
  else None.

Lemma get_prop_heap (v : jsval) (p : string) (h : heap) :
  snd (get_prop v p h) = h.
Proof. destruct v; simpl; try reflexivity. destruct (h !! l); reflexivity. Qed.

Lemma get_indicator_obj (tr : string -> string) (h : heap) (l : loc) (o : object) :
  h !! l = Some o ->
  get_indicator tr (JObj l) h = (inr (branch tr (status_of o)), h).
Proof.
  intros Hl. unfold get_indicator, bind, ret, get_prop, branch, status_of.
  rewrite Hl. destruct (strict_eq_str _ "Ordered"); [reflexivity|].
  rewrite Hl. destruct (strict_eq_str _ "Rejected"); reflexivity.
Qed.

(** Any input value: one status read decides the result, the heap is
    returned as it came in. *)
Lemma get_indicator_any (tr : string -> string) (doc : jsval) (h : heap) :
  get_indicator tr doc h =
  (match fst (get_prop doc "status" h) with
   | inl e => inl e
   | inr s => inr (branch tr s)
   end, h).
Proof.
  destruct doc as [| | | | |l]; try reflexivity.
  destruct (h !! l) as [o|] eqn:E.
  - rewrite (get_indicator_obj tr h l o E). unfold get_prop. rewrite E. reflexivity.
  - unfold get_indicator, bind, ret, get_prop, branch. rewrite E. simpl.
    rewrite E. reflexivity.
Qed.

Lemma strict_eq_str_true (v : jsval) (lit : string) :
  strict_eq_str v lit = true <-> v = JStr lit.
Proof.
  destruct v; simpl; split; intros H; try discriminate; try congruence.
  - apply String.eqb_eq in H. congruence.
  - inversion H. apply String.eqb_refl.
Qed.

Lemma branch_none (tr : string -> string) (s : jsval) :
  s <> JStr "Ordered" -> s <> JStr "Rejected" -> branch tr s = None.
Proof.
  intros H1 H2. unfold branch.
  destruct (strict_eq_str s "Ordered") eqn:E1;
    [apply strict_eq_str_true in E1; contradiction|].
  destruct (strict_eq_str s "Rejected") eqn:E2;
    [apply strict_eq_str_true in E2; contradiction|reflexivity].
Qed.

Lemma branch_some (tr : string -> string) (s : jsval) (i : indicator) :
  branch tr s = Some i -> s = JStr "Ordered" \/ s = JStr "Rejected".
Proof.
  unfold branch. intros H.
  destruct (strict_eq_str s "Ordered") eqn:E1;
    [left; apply strict_eq_str_true; exact E1|].
  destruct (strict_eq_str s "Rejected") eqn:E2;
    [right; apply strict_eq_str_true; exact E2|discriminate].
Qed.

(** ** Concrete runs *)

Definition heap_of (l : loc) (o : object) : heap := {[ l := o ]}.

Definition doc_heap (status : option jsval) : heap :=
  {[ 1%positive :=
       match status with
       | Some v => <["status" := v]> {[ "supplier" := JStr "ACME" ]}
       | None => {[ "supplier" := JStr "ACME" ]}
       end ]}.

Example run_ordered :
  fst (get_indicator id (JObj 1%positive) (doc_heap (Some (JStr "Ordered")))) =
  inr (Some (mk_indicator "Ordered" "purple" "status,=,Ordered")).
Proof. vm_compute. reflexivity. Qed.

Example run_rejected :
  fst (get_indicator id (JObj 1%positive) (doc_heap (Some (JStr "Rejected")))) =
  inr (Some (mk_indicator "Lost" "darkgrey" "status,=,Lost")).
Proof. vm_compute. reflexivity. Qed.

Example run_missing :
  fst (get_indicator id (JObj 1%positive) (doc_heap None)) = inr None.
Proof. vm_compute. reflexivity. Qed.

Example run_undefined_doc :
  exists e, fst (get_indicator id JUndefined ∅) = inl e.
Proof. eexists. reflexivity. Qed.

(** ** Claims *)

(** C1: for a record whose [status] is exactly ["Ordered"], [get_indicator]
    returns [[__("Ordered"), "purple", "status,=,Ordered"]]. *)
Theorem get_indicator_ordered (tr : string -> string) (h : heap) (l : loc) (o : object) :
  h !! l = Some o -> o !! "status" = Some (JStr "Ordered") ->
  fst (get_indicator tr (JObj l) h) =
  inr (Some (mk_indicator (tr "Ordered") "purple" "status,=,Ordered")).
Proof.
  intros Hl Hs. rewrite (get_indicator_obj tr h l o Hl).
  unfold status_of. rewrite Hs. reflexivity.
Qed.

Lemma get_indicator_ordered_witness :
  (heap_of 1%positive {[ "status" := JStr "Ordered" ]}) !! 1%positive
    = Some {[ "status" := JStr "Ordered" ]} /\
  fst (get_indicator id (JObj 1%positive)
         (heap_of 1%positive {[ "status" := JStr "Ordered" ]})) =
  inr (Some (mk_indicator (id "Ordered") "purple" "status,=,Ordered")).
Proof.
  split; [reflexivity|].
  apply (get_indicator_ordered id _ 1%positive {[ "status" := JStr "Ordered" ]});
    reflexivity.
Defined.

(** C2: for a record whose [status] is exactly ["Rejected"], [get_indicator]
    returns [[__("Lost"), "darkgrey", "status,=,Lost"]]: the filter value
    is ["Lost"], not ["Rejected"]. *)
Theorem get_indicator_rejected (tr : string -> string) (h : heap) (l : loc) (o : object) :
  h !! l = Some o -> o !! "status" = Some (JStr "Rejected") ->
  fst (get_indicator tr (JObj l) h) =
  inr (Some (mk_indicator (tr "Lost") "darkgrey" "status,=,Lost")).
Proof.
  intros Hl Hs. rewrite (get_indicator_obj tr h l o Hl).
  unfold status_of. rewrite Hs. reflexivity.
Qed.

Lemma get_indicator_rejected_witness :
  (heap_of 1%positive {[ "status" := JStr "Rejected" ]}) !! 1%positive
    = Some {[ "status" := JStr "Rejected" ]} /\
  fst (get_indicator id (JObj 1%positive)
         (heap_of 1%positive {[ "status" := JStr "Rejected" ]})) =
  inr (Some (mk_indicator (id "Lost") "darkgrey" "status,=,Lost")).
Proof.
  split; [reflexivity|].
  apply (get_indicator_rejected id _ 1%positive {[ "status" := JStr "Rejected" ]});
    reflexivity.
Defined.

(** C3: for a record whose [status] is neither ["Ordered"] nor ["Rejected"]
    (["Draft"], [""], [null], or no [status] property at all, read as
    [undefined]), [get_indicator] returns nothing ([undefined]). *)
Theorem get_indicator_other (tr : string -> string) (h : heap) (l : loc) (o : object) :
  h !! l = Some o ->
  status_of o <> JStr "Ordered" -> status_of o <> JStr "Rejected" ->
  fst (get_indicator tr (JObj l) h) = inr None.
Proof.
  intros Hl H1 H2. rewrite (get_indicator_obj tr h l o Hl). simpl.
  rewrite (branch_none tr _ H1 H2). reflexivity.
Qed.

Lemma get_indicator_other_witness :
  fst (get_indicator id (JObj 1%positive) (doc_heap None)) = inr None /\
  fst (get_indicator id (JObj 1%positive) (doc_heap (Some JNull))) = inr None.
Proof.
  split.
  - apply (get_indicator_other id _ 1%positive {[ "supplier" := JStr "ACME" ]});
      [reflexivity|discriminate|discriminate].
  - apply (get_indicator_other id _ 1%positive
             (<["status" := JNull]> {[ "supplier" := JStr "ACME" ]}));
      [reflexivity|vm_compute; discriminate|vm_compute; discriminate].
Defined.

(** C4: on every record [get_indicator] returns normally, whatever its
    [status] holds (missing, [null], a number, an object, ...); an
    indicator comes back only for ["Ordered"] and ["Rejected"], every
    other status takes the no-indicator path. *)
Theorem get_indicator_total (tr : string -> string) (h : heap) (l : loc) (o : object) :
  h !! l = Some o ->
  exists r, get_indicator tr (JObj l) h = (inr r, h) /\
    (r = None \/ status_of o = JStr "Ordered" \/ status_of o = JStr "Rejected").
Proof.
  intros Hl. exists (branch tr (status_of o)). split.
  - exact (get_indicator_obj tr h l o Hl).
  - destruct (branch tr (status_of o)) as [i|] eqn:E; [right|left; reflexivity].
    exact (branch_some tr _ i E).
Qed.

Lemma get_indicator_total_witness :
  doc_heap (Some (JNum 3)) !! 1%positive
    = Some (<["status" := JNum 3]> {[ "supplier" := JStr "ACME" ]}) /\
  exists r, get_indicator id (JObj 1%positive) (doc_heap (Some (JNum 3)))
              = (inr r, doc_heap (Some (JNum 3))) /\
    (r = None \/
     status_of (<["status" := JNum 3]> {[ "supplier" := JStr "ACME" ]}) = JStr "Ordered" \/
     status_of (<["status" := JNum 3]> {[ "supplier" := JStr "ACME" ]}) = JStr "Rejected").
Proof.
  split; [reflexivity|].
  apply (get_indicator_total id _ 1%positive _). reflexivity.
Defined.

(** C5: the registered settings of ["Supplier Quotation"] carry the
    constant [add_fields] list of exactly these five names in this order,
    whatever the registry held before. *)
Theorem add_fields_constant (reg : gmap string listview_settings) :
  ls_add_fields <$> (register reg !! "Supplier Quotation") =
  Some ["supplier"; "base_grand_total"; "status"; "company"; "currency"].
Proof. unfold register. rewrite lookup_insert_eq. reflexivity. Qed.

(** C6: calling [get_indicator] twice in a row on the same value gives
    the same outcome both times. *)
Theorem get_indicator_idempotent (tr : string -> string) (doc : jsval) (h : heap) :
  fst (get_indicator tr doc (snd (get_indicator tr doc h))) =
  fst (get_indicator tr doc h).
Proof.
  rewrite (get_indicator_any tr doc h). cbn [snd].
  rewrite (get_indicator_any tr doc h). reflexivity.
Qed.

(** C7: [get_indicator] writes nothing: the heap, and so every field of
    the record, is the same after the call as before. *)
Theorem get_indicator_no_mutation (tr : string -> string) (doc : jsval) (h : heap) :
  snd (get_indicator tr doc h) = h.
Proof. rewrite (get_indicator_any tr doc h). reflexivity. Qed.

(** C8: [get_indicator] returns on every record, with no effect on the
    heap. *)
Theorem get_indicator_terminates (tr : string -> string) (h : heap) (l : loc) (o : object) :
  h !! l = Some o ->
  exists r, get_indicator tr (JObj l) h = (inr r, h).
Proof. intros Hl. eexists. exact (get_indicator_obj tr h l o Hl). Qed.

Lemma get_indicator_terminates_witness :
  doc_heap None !! 1%positive = Some {[ "supplier" := JStr "ACME" ]} /\
  exists r, get_indicator id (JObj 1%positive) (doc_heap None) = (inr r, doc_heap None).
Proof.
  split; [reflexivity|].
  apply (get_indicator_terminates id _ 1%positive {[ "supplier" := JStr "ACME" ]}).
  reflexivity.
Defined.

(** C9: two records with the same [status] property get the same result,
    whatever their other fields. *)
Theorem get_indicator_status_only (tr : string -> string) (h1 h2 : heap)
    (l1 l2 : loc) (o1 o2 : object) :
  h1 !! l1 = Some o1 -> h2 !! l2 = Some o2 ->
  o1 !! "status" = o2 !! "status" ->
  fst (get_indicator tr (JObj l1) h1) = fst (get_indicator tr (JObj l2) h2).
Proof.
  intros H1 H2 Hs.
  rewrite (get_indicator_obj tr h1 l1 o1 H1), (get_indicator_obj tr h2 l2 o2 H2).
  unfold status_of. rewrite Hs. reflexivity.
Qed.

Lemma get_indicator_status_only_witness :
  fst (get_indicator id (JObj 1%positive)
         (heap_of 1%positive (<["status" := JStr "Ordered"]> {[ "company" := JStr "A" ]}))) =
  fst (get_indicator id (JObj 2%positive)
         (heap_of 2%positive (<["status" := JStr "Ordered"]> {[ "currency" := JStr "EUR" ]}))).
Proof.
  apply (get_indicator_status_only id _ _ 1%positive 2%positive
           (<["status" := JStr "Ordered"]> {[ "company" := JStr "A" ]})
           (<["status" := JStr "Ordered"]> {[ "currency" := JStr "EUR" ]}));
    [reflexivity|reflexivity|vm_compute; reflexivity].
Defined.

(** C10: matching is strict string equality: a status that is not a
    string, or a string other than ["Ordered"] and ["Rejected"] (such as
    ["ordered"] or ["REJECTED"]), gives no indicator. *)
Theorem get_indicator_strict (tr : string -> string) (h : heap) (l : loc) (o : object)
    (v : jsval) :
  h !! l = Some o -> o !! "status" = Some v ->
  (forall s, v <> JStr s) \/
  (exists s, v = JStr s /\ s <> "Ordered" /\ s <> "Rejected") ->
  fst (get_indicator tr (JObj l) h) = inr None.
Proof.
  intros Hl Hs Hv. rewrite (get_indicator_obj tr h l o Hl). simpl.
  unfold status_of. rewrite Hs. simpl. f_equal.
  apply branch_none;
    (destruct Hv as [Hn|(s & -> & Ho & Hr)]; [apply Hn|congruence]).
Qed.

Lemma get_indicator_strict_witness :
  fst (get_indicator id (JObj 1%positive) (doc_heap (Some (JStr "REJECTED")))) = inr None /\
  fst (get_indicator id (JObj 1%positive) (doc_heap (Some (JBool true)))) = inr None.
Proof.
  split.
  - apply (get_indicator_strict id _ 1%positive
             (<["status" := JStr "REJECTED"]> {[ "supplier" := JStr "ACME" ]})
             (JStr "REJECTED")); [reflexivity|reflexivity|].
    right. exists "REJECTED". split; [reflexivity|]. split; discriminate.
  - apply (get_indicator_strict id _ 1%positive
             (<["status" := JBool true]> {[ "supplier" := JStr "ACME" ]})
             (JBool true)); [reflexivity|reflexivity|].
    left. intros s. discriminate.
Defined.

(** ** Further properties of the list-view settings *)

(** [get_indicator(undefined)] and [get_indicator(null)] throw a
    TypeError at the read of [doc.status], and write nothing. *)
Theorem get_indicator_nullish_throws (tr : string -> string) (doc : jsval) (h : heap) :
  doc = JUndefined \/ doc = JNull ->
  exists msg, get_indicator tr doc h = (inl (TypeError msg), h).
Proof. intros [-> | ->]; eexists; reflexivity. Qed.

Lemma get_indicator_nullish_throws_witness :
  exists msg, get_indicator id JNull ∅ = (inl (TypeError msg), ∅).
Proof. apply (get_indicator_nullish_throws id JNull ∅). right. reflexivity. Defined.

(** A primitive passed as [doc] (a boolean, a number, even the string
    ["Ordered"] itself) has no [status] property: no indicator, no error. *)
Theorem get_indicator_primitive (tr : string -> string) (doc : jsval) (h : heap) :
  (exists b, doc = JBool b) \/ (exists n, doc = JNum n) \/ (exists s, doc = JStr s) ->
  get_indicator tr doc h = (inr None, h).
Proof. intros [[b ->] | [[n ->] | [s ->]]]; reflexivity. Qed.

Lemma get_indicator_primitive_witness :
  get_indicator id (JStr "Ordered") ∅ = (inr None, ∅).
Proof.
  apply (get_indicator_primitive id (JStr "Ordered") ∅).
  right. right. exists "Ordered". reflexivity.
Defined.

(** Shape of every indicator returned: the label is the translation of
    the filter's value, the filter is on [status] with [=], and the
    colour is fixed by that value (["Ordered"]/purple or ["Lost"]/darkgrey). *)
Theorem get_indicator_shape (tr : string -> string) (doc : jsval) (h : heap)
    (i : indicator) :
  fst (get_indicator tr doc h) = inr (Some i) ->
  exists v, label i = tr v /\ filter i = ("status,=," ++ v)%string /\
    ((v = "Ordered" /\ color i = "purple") \/ (v = "Lost" /\ color i = "darkgrey")).
Proof.
  rewrite (get_indicator_any tr doc h). simpl.
  destruct (fst (get_prop doc "status" h)) as [e|s]; [discriminate|].
  intros Hs. injection Hs as Hb. unfold branch in Hb.
  destruct (strict_eq_str s "Ordered");
    [injection Hb as <-; exists "Ordered"%string; auto|].
  destruct (strict_eq_str s "Rejected"); [|discriminate].
  injection Hb as <-. exists "Lost"%string. auto.
Qed.

Lemma get_indicator_shape_witness :
  fst (get_indicator id (JObj 1%positive) (doc_heap (Some (JStr "Rejected")))) =
    inr (Some (mk_indicator "Lost" "darkgrey" "status,=,Lost")) /\
  exists v, label (mk_indicator "Lost" "darkgrey" "status,=,Lost") = id v /\
    filter (mk_indicator "Lost" "darkgrey" "status,=,Lost") = ("status,=," ++ v)%string /\
    ((v = "Ordered" /\ color (mk_indicator "Lost" "darkgrey" "status,=,Lost") = "purple") \/
     (v = "Lost" /\ color (mk_indicator "Lost" "darkgrey" "status,=,Lost") = "darkgrey")).
Proof.
  split; [vm_compute; reflexivity|].
  apply (get_indicator_shape id (JObj 1%positive) (doc_heap (Some (JStr "Rejected")))).
  vm_compute. reflexivity.
Defined.

(** An outcome of [get_indicator] with the label dropped. *)
Definition colour_filter (r : js_error + option indicator)
  : js_error + option (string * string) :=
  match r with
  | inl e => inl e
  | inr oi => inr (option_map (fun i => (color i, filter i)) oi)
  end.

(** Colour and filter do not depend on the translation: two translation
    lookups give indicators that differ at most in their labels. *)
Theorem get_indicator_translation_label_only (tr1 tr2 : string -> string)
    (doc : jsval) (h : heap) :
  colour_filter (fst (get_indicator tr1 doc h)) =
  colour_filter (fst (get_indicator tr2 doc h)).
Proof.
  rewrite (get_indicator_any tr1 doc h), (get_indicator_any tr2 doc h). simpl.
  destruct (fst (get_prop doc "status" h)) as [e|s]; [reflexivity|].
  simpl. unfold branch.
  destruct (strict_eq_str s "Ordered"); [reflexivity|].
  destruct (strict_eq_str s "Rejected"); reflexivity.
Qed.



(** The registration assigns only the ["Supplier Quotation"] key of
    [frappe.listview_settings]: every other document type keeps its
    settings (or stays absent). *)
Theorem register_preserves_others (reg : gmap string listview_settings) (k : string) :
  k <> "Supplier Quotation" -> register reg !! k = reg !! k.
Proof. intros Hk. unfold register. apply lookup_insert_ne. congruence. Qed.

Lemma register_preserves_others_witness :
  register (∅ : gmap string listview_settings) !! "Purchase Order"
  = (∅ : gmap string listview_settings) !! "Purchase Order".
Proof.
  apply (register_preserves_others ∅ "Purchase Order"). discriminate.
Defined.

(** Loading the script again (re-running the assignment) leaves the
    registry as after the first load. *)
Theorem register_twice (reg : gmap string listview_settings) :
  register (register reg) = register reg.
Proof. unfold register. apply insert_insert_eq. Qed.

